(** * A shallow embedding of dosa's entity finder (finder.go)

    [FindEntities] parses a directory, walks every declaration with an
    [EntityRecordingVisitor], tests each struct type with [isDosaEntity] and
    translates candidates with [tableFromStructType].  The collaborators the
    file calls but does not define (the Go standard library and helpers of
    the dosa package that live in other files) are gathered in the class
    [Externals]; the theorems hold for every instance of it unless a
    hypothesis about a collaborator is stated explicitly. *)

From Stdlib Require Import String Ascii List.
From stdpp Require Import base gmap strings list.
Import ListNotations.
Open Scope string_scope.
#[local] Set Warnings "-register-all".

(** ** Data model *)

(** [dosa.Type]: the closed enumeration of column types. *)
Module DosaType.
Inductive t : Set :=
| Invalid | TUUID | String | Int32 | Int64 | Double | Blob | Timestamp | Bool.

Definition eqb (a b : t) : bool :=
  match a, b with
  | Invalid, Invalid | TUUID, TUUID | String, String | Int32, Int32
  | Int64, Int64 | Double, Double | Blob, Blob | Timestamp, Timestamp
  | Bool, Bool => true
  | _, _ => false
  end.
End DosaType.

(** Go [error] values, as built by [fmt.Errorf] and [errors.Wrap(f)]. *)
Inductive error : Type :=
| Errorf (format : string) (args : list string)
| Wrapf (cause : error) (format : string) (args : list string).

(** A function returning [(T, error)]: Go returns a nil [T] together with
    a non-nil error, so the error case carries no partial value. *)
Inductive result (A : Type) : Type :=
| Ok (a : A)
| Err (e : error).
Arguments Ok {A} a.
Arguments Err {A} e.

Definition bind {A B} (m : result A) (k : A -> result B) : result B :=
  match m with Ok a => k a | Err e => Err e end.
Notation "'let?' x := m 'in' k" := (bind m (fun x => k))
  (at level 200, x ident, m at level 100, k at level 200).

(** [go/token] kinds of a [BasicLit]; only STRING matters here. *)
Inductive token_kind : Set := STRING | INT | OTHER_KIND.

Record BasicLit : Type := mkBasicLit { Kind : token_kind; Value : string }.

(** The fragment of [go/ast] the finder inspects.  A struct field
    [ast.Field] has its bound names, its type and an optional tag. *)
Inductive Expr : Type :=
| Ident (Name : string)
| ArrayType (Len : option Expr) (Elt : Expr)
| SelectorExpr (X : Expr) (Sel : string)
| StarExpr (X : Expr)
| StructType (Fields : list Field)
| OtherExpr
with Field : Type :=
| mkField (Names : list string) (FType : Expr) (Tag : option BasicLit).

Definition field_names (f : Field) : list string :=
  match f with mkField ns _ _ => ns end.
Definition field_type (f : Field) : Expr :=
  match f with mkField _ ty _ => ty end.
Definition field_tag (f : Field) : option BasicLit :=
  match f with mkField _ _ tg => tg end.

(** Declarations and statements.  A [FuncDecl]'s receiver, name and
    signature are visited by [ast.Walk] but the visitor returns nil on
    them, so only its body is kept.  [OtherStmt] stands for statements
    such as [if], [for] or [switch], whose nested blocks the visitor does
    not enter. *)
Inductive Decl : Type :=
| GenDecl (Specs : list Spec)
| FuncDecl (Body : option (list Stmt))
| BadDecl
with Spec : Type :=
| TypeSpec (SpecName : string) (SpecType : Expr)
| ValueSpec
| ImportSpec
with Stmt : Type :=
| DeclStmt (D : Decl)
| BlockStmt (List : list Stmt)
| OtherStmt (Nested : list Stmt).

(** dosa's [PrimaryKey]. *)
Record ClusteringKey : Type := mkClusteringKey { CKName : string; Descending : bool }.
Record PrimaryKey : Type :=
  mkPrimaryKey { PartitionKeys : list string; ClusteringKeys : list ClusteringKey }.

(** dosa's [ColumnDefinition]. *)
Record ColumnDefinition : Type :=
  mkColumnDefinition { ColName : string; ColType : DosaType.t }.

(** dosa's [Table], with its embedded [EntityDefinition] flattened:
    [Name], [Key] (a [*PrimaryKey], so possibly nil) and [Columns]. *)
Record Table : Type := mkTable {
  StructName : string;
  Name : string;
  Key : option PrimaryKey;
  Columns : list ColumnDefinition;
  ColToField : gmap string string;
  FieldToCol : gmap string string
}.

(** ** The collaborators of finder.go

    [entityName] and [dosaTagKey] are the package constants naming the
    marker type and the tag key;
    [tag_get tag key] is [reflect.StructTag(tag).Get(key)];
    [first_rune_is_lower name] is
    [unicode.IsLower(utf8.DecodeRuneInString(name))];
    [filepath_match pattern name] is [filepath.Match(pattern, name)];
    [parse_dir path filter] is [parser.ParseDir] on the directory [path]
    with the given file filter: a fatal error or the packages, each a list of
    files, each a list of declarations (Go's maps of packages and files
    are iterated in some order, which the list fixes).
    The helpers of the dosa package defined outside finder.go are
    [NormalizeName], [parseEntityTag], [parseField], [translateKeyName]
    and [Table.EnsureValid].  Modelled from the spec: [translateKeyName]
    "resolves key field references against the now-complete column list",
    so it is given as the function computing the table's new key. *)
Class Externals : Type := {
  entityName : string;
  dosaTagKey : string;
  tag_get : string -> string -> string;
  first_rune_is_lower : string -> bool;
  filepath_match : string -> string -> bool * option error;
  parse_dir : string -> (string -> bool) -> result (list (list (list Decl)));
  NormalizeName : string -> result string;
  parseEntityTag : string -> string -> result (string * option PrimaryKey);
  parseField : DosaType.t -> string -> string -> result ColumnDefinition;
  translateKeyName : Table -> option PrimaryKey;
  EnsureValid : Table -> option error
}.


(** ** Go string helpers *)

Definition string_rev (s : string) : string :=
  string_of_list_ascii (rev (list_ascii_of_string s)).

Fixpoint trim_left_byte (c : ascii) (s : string) : string :=
  match s with
  | EmptyString => EmptyString
  | String a r => if Ascii.eqb a c then trim_left_byte c r else s
  end.

(** [strings.Trim(s, "`")]: the cut set is one ASCII byte. *)
Definition trim_backquotes (s : string) : string :=
  string_rev (trim_left_byte "`" (string_rev (trim_left_byte "`" s))).

(** The UTF-8 encodings of the runes [unicode.IsSpace] accepts.  They are
    prefix-free, so a string starts with (ends with) one of them exactly
    when [utf8.DecodeRuneInString] ([utf8.DecodeLastRuneInString]) returns
    a white-space rune. *)
Definition space_encodings : list (list nat) :=
  [[9]; [10]; [11]; [12]; [13]; [32]; [194; 133]; [194; 160];
   [225; 154; 128];
   [226; 128; 128]; [226; 128; 129]; [226; 128; 130]; [226; 128; 131];
   [226; 128; 132]; [226; 128; 133]; [226; 128; 134]; [226; 128; 135];
   [226; 128; 136]; [226; 128; 137]; [226; 128; 138];
   [226; 128; 168]; [226; 128; 169]; [226; 128; 175]; [226; 129; 159];
   [227; 128; 128]].

Fixpoint nat_prefix (p l : list nat) : bool :=
  match p, l with
  | [], _ => true
  | x :: p', y :: l' => Nat.eqb x y && nat_prefix p' l'
  | _ :: _, [] => false
  end.

(** Length of the white-space rune the byte list starts with, if any. *)
Definition leading_space (l : list nat) : option nat :=
  match List.find (fun enc => nat_prefix enc l) space_encodings with
  | Some enc => Some (length enc)
  | None => None
  end.

Fixpoint trim_left_space_fuel (fuel : nat) (l : list nat) : list nat :=
  match fuel with
  | O => l
  | S fuel' =>
      match leading_space l with
      | Some n => trim_left_space_fuel fuel' (skipn n l)
      | None => l
      end
  end.

Fixpoint trim_right_space_fuel (fuel : nat) (l : list nat) : list nat :=
  match fuel with
  | O => l
  | S fuel' =>
      match List.find (fun enc => nat_prefix (rev enc) (rev l)) space_encodings with
      | Some enc => trim_right_space_fuel fuel' (firstn (length l - length enc) l)
      | None => l
      end
  end.

Definition bytes_of (s : string) : list nat :=
  map nat_of_ascii (list_ascii_of_string s).
Definition string_of_bytes (l : list nat) : string :=
  string_of_list_ascii (map ascii_of_nat l).

(** [strings.TrimSpace]. *)
Definition TrimSpace (s : string) : string :=
  let l := bytes_of s in
  string_of_bytes (trim_right_space_fuel (length l)
                     (trim_left_space_fuel (length l) l)).

(** ** finder.go *)

(** [stringToDosaType]. *)
Definition stringToDosaType (inType : string) : DosaType.t :=
  if String.eqb inType "string" then DosaType.String
  else if String.eqb inType "[]byte" then DosaType.Blob
  else if String.eqb inType "bool" then DosaType.Bool
  else if String.eqb inType "int32" then DosaType.Int32
  else if String.eqb inType "int64" then DosaType.Int64
  else if String.eqb inType "float64" then DosaType.Double
  else if String.eqb inType "time.Time" then DosaType.Timestamp
  else if String.eqb inType "UUID" then DosaType.TUUID
  else DosaType.Invalid.

Section Finder.
Context `{X : Externals}.

(** [isDosaEntity], on the field list of the struct type. *)
Definition isDosaEntity (fields : list Field) : bool :=
  match fields with
  | [] => false
  | candidateEntityField :: _ =>
      let type_rejected :=
        match field_type candidateEntityField with
        | Ident name => negb (String.eqb name entityName)
        | _ => false
        end in
      if type_rejected then false
      else
        match field_tag candidateEntityField with
        | None => false
        | Some lit =>
            match Kind lit with
            | STRING =>
                negb (String.eqb
                        (tag_get (trim_backquotes (Value lit)) dosaTagKey) "")
            | _ => false
            end
        end
  end.

(** The [dosaTag] of a field: the trimmed value of its dosa tag key, or
    the empty string when the field has no tag. *)
Definition field_dosa_tag (field : Field) : string :=
  match field_tag field with
  | Some lit => TrimSpace (tag_get (trim_backquotes (Value lit)) dosaTagKey)
  | None => ""
  end.

(** The [kind] the type switch of [tableFromStructType] computes. *)
Definition field_kind (ty : Expr) : string :=
  match ty with
  | Ident name => name
  | ArrayType _ (Ident name) => if String.eqb name "byte" then "[]byte" else ""
  | SelectorExpr (Ident name) _ =>
      if String.eqb name "time" then "time.Time" else ""
  | _ => ""
  end.

Definition set_name_key (t : Table) (n : string) (k : option PrimaryKey) : Table :=
  mkTable (StructName t) n k (Columns t) (ColToField t) (FieldToCol t).

Definition set_key (t : Table) (k : option PrimaryKey) : Table :=
  mkTable (StructName t) (Name t) k (Columns t) (ColToField t) (FieldToCol t).

(** The three assignments after a successful [parseField]. *)
Definition add_column (t : Table) (name : string) (cd : ColumnDefinition) : Table :=
  mkTable (StructName t) (Name t) (Key t) (Columns t ++ [cd])
    (<[ColName cd := name]> (ColToField t))
    (<[name := ColName cd]> (FieldToCol t)).

(** The inner loop [for _, fieldName := range field.Names]. *)
Fixpoint add_columns (kind dosaTag : string) (names : list string) (t : Table)
  : result Table :=
  match names with
  | [] => Ok t
  | name :: rest =>
      if first_rune_is_lower name then add_columns kind dosaTag rest t
      else
        let typ := stringToDosaType kind in
        if DosaType.eqb typ DosaType.Invalid
        then Err (Errorf "Column %q has invalid type %q" [name; kind])
        else
          match parseField typ name dosaTag with
          | Err e => Err (Wrapf e "column %q" [name])
          | Ok cd => add_columns kind dosaTag rest (add_column t name cd)
          end
  end.

(** One iteration of the loop over [structType.Fields.List]. *)
Definition field_step (structName : string) (t : Table) (field : Field)
  : result Table :=
  let dosaTag := field_dosa_tag field in
  if String.eqb dosaTag "-" then Ok t
  else
    let kind := field_kind (field_type field) in
    if String.eqb kind entityName then
      let? nk := parseEntityTag structName dosaTag in
      Ok (set_name_key t (fst nk) (snd nk))
    else add_columns kind dosaTag (field_names field) t.

Fixpoint fields_loop (structName : string) (t : Table) (fields : list Field)
  : result Table :=
  match fields with
  | [] => Ok t
  | field :: rest =>
      let? t' := field_step structName t field in
      fields_loop structName t' rest
  end.

(** [tableFromStructType]. *)
Definition tableFromStructType (structName : string) (fields : list Field)
  : result Table :=
  match NormalizeName structName with
  | Err e => Err (Wrapf e "struct name is invalid" [])
  | Ok normalizedName =>
      let t0 := mkTable structName normalizedName None [] ∅ ∅ in
      let? t := fields_loop structName t0 fields in
      let t' := set_key t (translateKeyName t) in
      match EnsureValid t' with
      | Some e => Err (Wrapf e "failed to parse dosa object" [])
      | None => Ok t'
      end
  end.

(** [EntityRecordingVisitor]. *)
Record EntityRecordingVisitor : Type :=
  mkVisitor { Entities : list Table; Warnings : list error }.

(** The nodes [ast.Walk] hands to [Visit]. *)
Inductive Node : Type :=
| NDecl (d : Decl)
| NSpec (s : Spec)
| NStmt (s : Stmt).

(** Recording one translation outcome: the two branches of
    [if err == nil] in [Visit]. *)
Definition record (f : EntityRecordingVisitor) (r : result Table)
  : EntityRecordingVisitor :=
  match r with
  | Ok table => mkVisitor (Entities f ++ [table]) (Warnings f)
  | Err err => mkVisitor (Entities f) (Warnings f ++ [err])
  end.

(** [Visit], with the translator it calls as a parameter [tr]
    ([Visit] below fixes it to [tableFromStructType]).  The boolean is
    true when [Visit] returns the visitor [f] and false when it returns
    nil, i.e. whether [ast.Walk] descends into the node's children. *)
Definition Visit_with (tr : string -> list Field -> result Table)
  (f : EntityRecordingVisitor) (n : Node) : EntityRecordingVisitor * bool :=
  match n with
  | NDecl (GenDecl _) | NDecl (FuncDecl _)
  | NStmt (BlockStmt _) | NStmt (DeclStmt _) => (f, true)
  | NSpec (TypeSpec name (StructType fields)) =>
      if isDosaEntity fields then (record f (tr name fields), false)
      else (f, false)
  | _ => (f, false)
  end.

Definition Visit := Visit_with tableFromStructType.

(** [ast.Walk(f, node)]: visit the node, and when [Visit] returns the
    visitor, walk the children that can hold a declaration.  The final
    [Visit(nil)] of [ast.Walk] falls in the default case and does
    nothing. *)
Fixpoint walk_decl (tr : string -> list Field -> result Table)
  (f : EntityRecordingVisitor) (d : Decl) {struct d} : EntityRecordingVisitor :=
  let (f1, go) := Visit_with tr f (NDecl d) in
  if go then
    match d with
    | GenDecl specs =>
        fold_left (fun f s => fst (Visit_with tr f (NSpec s))) specs f1
    | FuncDecl (Some body) =>
        let (f2, go2) := Visit_with tr f1 (NStmt (BlockStmt body)) in
        if go2 then
          (fix walk_list (f : EntityRecordingVisitor) (l : list Stmt)
             : EntityRecordingVisitor :=
             match l with
             | [] => f
             | s :: rest => walk_list (walk_stmt tr f s) rest
             end) f2 body
        else f2
    | _ => f1
    end
  else f1
with walk_stmt (tr : string -> list Field -> result Table)
  (f : EntityRecordingVisitor) (s : Stmt) {struct s} : EntityRecordingVisitor :=
  let (f1, go) := Visit_with tr f (NStmt s) in
  if go then
    match s with
    | DeclStmt d => walk_decl tr f1 d
    | BlockStmt l =>
        (fix walk_list (f : EntityRecordingVisitor) (l : list Stmt)
           : EntityRecordingVisitor :=
           match l with
           | [] => f
           | s :: rest => walk_list (walk_stmt tr f s) rest
           end) f1 l
    | OtherStmt _ => f1
    end
  else f1.

(** The file filter passed to [parser.ParseDir]. *)
Definition include_file (excludes : string) (name : string) : bool :=
  if String.eqb excludes "" then true
  else let (matched, _) := filepath_match excludes name in negb matched.

(** The three nested loops of [FindEntities]. *)
Definition walk_packages (erv : EntityRecordingVisitor)
  (packages : list (list (list Decl))) : EntityRecordingVisitor :=
  fold_left (fun erv pkg =>
    fold_left (fun erv file =>
      fold_left (walk_decl tableFromStructType) file erv) pkg erv) packages erv.

(** [FindEntities(path, excludes)]: entities, warnings and a fatal
    error (None for nil). *)
Definition FindEntities (path excludes : string)
  : list Table * list error * option error :=
  match parse_dir path (include_file excludes) with
  | Err err => ([], [], Some err)
  | Ok packages =>
      let erv := walk_packages (mkVisitor [] []) packages in
      (Entities erv, Warnings erv, None)
  end.

End Finder.

(** ** A concrete instance of the collaborators

    Used to evaluate the finder on concrete records. *)
Module Concrete.

Definition dq : ascii := "034"%char.
Definition backslash : ascii := "092"%char.

Fixpoint skip_spaces (l : list ascii) : list ascii :=
  match l with
  | c :: r => if Ascii.eqb c " " then skip_spaces r else l
  | [] => []
  end.

(** Scan a tag key: bytes above space, other than the colon, the
    double quote and DEL. *)
Fixpoint scan_name (l : list ascii) : list ascii * list ascii :=
  match l with
  | c :: r =>
      if (32 <? nat_of_ascii c)%nat && negb (Ascii.eqb c ":")
         && negb (Ascii.eqb c dq) && negb (nat_of_ascii c =? 127)%nat
      then let (n, rest) := scan_name r in (c :: n, rest)
      else ([], l)
  | [] => ([], [])
  end.

(** Scan the body of a quoted value up to its closing quote, keeping
    escapes; returns the raw body and what follows the closing quote. *)
Fixpoint scan_quoted (l : list ascii) : option (list ascii * list ascii) :=
  match l with
  | [] => None
  | c :: r =>
      if Ascii.eqb c dq then Some ([], r)
      else if Ascii.eqb c backslash then
        match r with
        | [] => None
        | e :: r' =>
            match scan_quoted r' with
            | Some (body, rest) => Some (c :: e :: body, rest)
            | None => None
            end
        end
      else
        match scan_quoted r with
        | Some (body, rest) => Some (c :: body, rest)
        | None => None
        end
  end.

(** [strconv.Unquote] on the body, for escaped backslashes, escaped
    double quotes and newlines; any other escape is refused. *)
Fixpoint unquote (l : list ascii) : option (list ascii) :=
  match l with
  | [] => Some []
  | c :: r =>
      if Ascii.eqb c backslash then
        match r with
        | e :: r' =>
            let out := if Ascii.eqb e backslash then Some backslash
                       else if Ascii.eqb e dq then Some dq
                       else if Ascii.eqb e "n" then Some "010"%char
                       else None in
            match out, unquote r' with
            | Some o, Some u => Some (o :: u)
            | _, _ => None
            end
        | [] => None
        end
      else option_map (cons c) (unquote r)
  end.

(** [reflect.StructTag.Lookup], returning the value or "". *)
Fixpoint lookup_fuel (fuel : nat) (key : list ascii) (tag : list ascii) : list ascii :=
  match fuel with
  | O => []
  | S fuel' =>
      match skip_spaces tag with
      | [] => []
      | tag1 =>
          match scan_name tag1 with
          | ((_ :: _) as name, colon :: q :: rest) =>
              if Ascii.eqb colon ":" && Ascii.eqb q dq then
                match scan_quoted rest with
                | None => []
                | Some (body, rest') =>
                    if decide (name = key) then
                      match unquote body with Some v => v | None => [] end
                    else lookup_fuel fuel' key rest'
                end
              else []
          | _ => []
          end
      end
  end.

Definition tag_get (tag key : string) : string :=
  string_of_list_ascii
    (lookup_fuel (String.length tag) (list_ascii_of_string key)
       (list_ascii_of_string tag)).

(** A raw tag literal [`key:"value"`] as the parser stores it. *)
Definition mk_tag (key value : string) : BasicLit :=
  mkBasicLit STRING
    ("`" ++ key ++ ":" ++ String dq (value ++ String dq "`")).

Definition is_ascii_lower (c : ascii) : bool :=
  (97 <=? nat_of_ascii c)%nat && (nat_of_ascii c <=? 122)%nat.

(** [unicode.IsLower] of the first rune, on ASCII names. *)
Definition first_rune_is_lower (name : string) : bool :=
  match name with
  | String c _ => is_ascii_lower c
  | EmptyString => false
  end.

Definition lower_ascii (c : ascii) : ascii :=
  if (65 <=? nat_of_ascii c)%nat && (nat_of_ascii c <=? 90)%nat
  then ascii_of_nat (nat_of_ascii c + 32) else c.

Definition to_lower (s : string) : string :=
  string_of_list_ascii (map lower_ascii (list_ascii_of_string s)).

(** [filepath.Match] on literal patterns; a pattern holding '[' is
    malformed and reported as such, with [matched] false. *)
Definition filepath_match (pattern name : string) : bool * option error :=
  if existsb (fun c => Ascii.eqb c "[") (list_ascii_of_string pattern)
  then (false, Some (Errorf "syntax error in pattern" []))
  else (String.eqb pattern name, None).

(** Splitting a tag value at ',' into trimmed "k=v" pairs. *)
Fixpoint split_comma (l : list ascii) : list (list ascii) :=
  match l with
  | [] => [[]]
  | c :: r =>
      if Ascii.eqb c "," then [] :: split_comma r
      else match split_comma r with
           | w :: ws => (c :: w) :: ws
           | [] => [[c]]
           end
  end.

Fixpoint split_eq (l : list ascii) : option (list ascii * list ascii) :=
  match l with
  | [] => None
  | c :: r =>
      if Ascii.eqb c "=" then Some ([], r)
      else option_map (fun p => (c :: fst p, snd p)) (split_eq r)
  end.

Definition tag_pairs (tag : string) : list (string * string) :=
  flat_map (fun w =>
    match split_eq (list_ascii_of_string (TrimSpace (string_of_list_ascii w))) with
    | Some (k, v) => [(string_of_list_ascii k, string_of_list_ascii v)]
    | None => []
    end) (split_comma (list_ascii_of_string tag)).

Definition tag_value (k : string) (tag : string) : option string :=
  option_map snd (List.find (fun p => String.eqb (fst p) k) (tag_pairs tag)).

(** Modelled from the spec: [NormalizeName], the schema-facing name of a
    declared name (lower case; the empty name is invalid). *)
Definition NormalizeName (s : string) : result string :=
  if String.eqb s "" then Err (Errorf "empty name" []) else Ok (to_lower s).

(** Modelled from the spec: [parseEntityTag], reading an optional
    [name=] override and a required [primaryKey=] from the marker tag. *)
Definition parseEntityTag (structName tag : string)
  : result (string * option PrimaryKey) :=
  match tag_value "primaryKey" tag with
  | None => Err (Errorf "no primary key in %q" [tag])
  | Some k =>
      let n := match tag_value "name" tag with
               | Some n => n | None => to_lower structName end in
      Ok (n, Some (mkPrimaryKey [k] []))
  end.

(** Modelled from the spec: [parseField], building the column of the
    given type, named by the tag's [name=] override or the lower-cased
    field name. *)
Definition parseField (typ : DosaType.t) (name tag : string)
  : result ColumnDefinition :=
  let col := match tag_value "name" tag with
             | Some n => n | None => to_lower name end in
  Ok (mkColumnDefinition col typ).

(** Modelled from the spec: [translateKeyName], replacing key field
    names by their column names. *)
Definition translateKeyName (t : Table) : option PrimaryKey :=
  option_map (fun pk =>
    mkPrimaryKey
      (map (fun k => match FieldToCol t !! k with Some c => c | None => k end)
           (PartitionKeys pk))
      (ClusteringKeys pk)) (Key t).

(** Modelled from the spec: [EnsureValid], requiring columns with
    pairwise distinct names and a key whose partition keys are columns. *)
Definition EnsureValid (t : Table) : option error :=
  let names := map ColName (Columns t) in
  if bool_decide (names = []) then Some (Errorf "no columns" [])
  else if bool_decide (NoDup names) then
    match Key t with
    | Some pk =>
        if bool_decide (PartitionKeys pk <> [] /\
                        Forall (fun k => k ∈ names) (PartitionKeys pk))
        then None
        else Some (Errorf "invalid primary key" [])
    | None => Some (Errorf "no primary key" [])
    end
  else Some (Errorf "duplicate column name" []).

(** A directory of files, each a name and its declarations ([None] for
    a file that does not parse), read as one package: the first filtered
    file that does not parse makes the whole call fail. *)
Definition parse_dir (dir : list (string * option (list Decl))) (path : string)
  (filter : string -> bool) : result (list (list (list Decl))) :=
  let files := List.filter (fun nf => filter (fst nf)) dir in
  match List.find (fun nf => match snd nf with None => true | Some _ => false end) files with
  | Some (name, _) => Err (Errorf "%s: syntax error" [name])
  | None => Ok [flat_map (fun nf => match snd nf with Some ds => [ds] | None => [] end) files]
  end.

#[export] Instance externals (dir : list (string * option (list Decl))) : Externals :=
  Build_Externals "Entity" "dosa" tag_get first_rune_is_lower filepath_match
    (parse_dir dir) NormalizeName parseEntityTag parseField translateKeyName
    EnsureValid.

End Concrete.

(** ** Definitions the statements use *)

(** The known type labels with the column type each one names, as the
    spec lists them. *)
Definition known_labels : list (string * DosaType.t) :=
  [("string", DosaType.String); ("[]byte", DosaType.Blob);
   ("bool", DosaType.Bool); ("int32", DosaType.Int32);
   ("int64", DosaType.Int64); ("float64", DosaType.Double);
   ("time.Time", DosaType.Timestamp); ("UUID", DosaType.TUUID)].

Section Statements.
Context `{X : Externals}.

(** The record shapes the heuristic is meant to reject: no field, a first
    field whose type is a plain identifier other than the marker type, or
    a first field without a string tag carrying a non-empty marker-key
    value. *)
Definition rejected_shape (fields : list Field) : Prop :=
  match fields with
  | [] => True
  | f :: _ =>
      (exists n, field_type f = Ident n /\ n <> entityName) \/
      field_tag f = None \/
      (exists lit, field_tag f = Some lit /\
         (Kind lit <> STRING \/ tag_get (trim_backquotes (Value lit)) dosaTagKey = ""))
  end.

(** The candidates [ast.Walk] meets, in traversal order. *)
Definition spec_candidates (s : Spec) : list (string * list Field) :=
  match s with
  | TypeSpec name (StructType fields) =>
      if isDosaEntity fields then [(name, fields)] else []
  | _ => []
  end.

Fixpoint decl_candidates (d : Decl) : list (string * list Field) :=
  match d with
  | GenDecl specs => flat_map spec_candidates specs
  | FuncDecl (Some body) =>
      (fix go (l : list Stmt) : list (string * list Field) :=
         match l with [] => [] | s :: rest => app (stmt_candidates s) (go rest) end) body
  | _ => []
  end
with stmt_candidates (s : Stmt) : list (string * list Field) :=
  match s with
  | DeclStmt d => decl_candidates d
  | BlockStmt l =>
      (fix go (l : list Stmt) : list (string * list Field) :=
         match l with [] => [] | s :: rest => app (stmt_candidates s) (go rest) end) l
  | OtherStmt _ => []
  end.

(** Recording the translations of a list of candidates one by one. *)
Definition replay (tr : string -> list Field -> result Table)
  (cands : list (string * list Field)) (f : EntityRecordingVisitor)
  : EntityRecordingVisitor :=
  fold_left (fun f c => record f (tr (fst c) (snd c))) cands f.

Definition oks (rs : list (result Table)) : list Table :=
  flat_map (fun r => match r with Ok t => [t] | Err _ => [] end) rs.
Definition errs (rs : list (result Table)) : list error :=
  flat_map (fun r => match r with Ok _ => [] | Err e => [e] end) rs.

(** Whether the translator skips the field as ignored, and whether it
    treats it as the marker field. *)
Definition ignored (field : Field) : bool := String.eqb (field_dosa_tag field) "-".
Definition is_marker (field : Field) : bool :=
  String.eqb (field_kind (field_type field)) entityName.

(** The exported names bound by the non-ignored, non-marker fields. *)
Definition exported_names (fields : list Field) : list string :=
  flat_map (fun field =>
    if ignored field || is_marker field then []
    else List.filter (fun n => negb (first_rune_is_lower n)) (field_names field))
    fields.

(** The field with its lower-case names removed. *)
Definition drop_lower_names (field : Field) : Field :=
  mkField (List.filter (fun n => negb (first_rune_is_lower n)) (field_names field))
    (field_type field) (field_tag field).

(** The two mapping tables are inverse bijections between the bound
    names [ns] and the column names of the table. *)
Definition tables_agree (t : Table) (ns : list string) : Prop :=
  (forall n, FieldToCol t !! n <> None <-> In n ns) /\
  (forall c, ColToField t !! c <> None <-> In c (map ColName (Columns t))) /\
  (forall c n, ColToField t !! c = Some n <-> FieldToCol t !! n = Some c).

(** The [(type, name, tag)] triples [parseField] is called with, in
    order: one per exported name of each non-ignored, non-marker field. *)
Definition column_specs (fields : list Field) : list (DosaType.t * string * string) :=
  flat_map (fun field =>
    if ignored field || is_marker field then []
    else map (fun n => (stringToDosaType (field_kind (field_type field)), n,
                        field_dosa_tag field))
             (List.filter (fun n => negb (first_rune_is_lower n)) (field_names field)))
    fields.

(** The declarations of all files of all packages, in iteration order. *)
Definition all_decls (packages : list (list (list Decl))) : list Decl :=
  concat (concat packages).

(** The translation outcomes of all candidates of a package list. *)
Definition outcomes (packages : list (list (list Decl))) : list (result Table) :=
  map (fun c => tableFromStructType (fst c) (snd c))
      (flat_map decl_candidates (all_decls packages)).

End Statements.

(** ** Concrete records and directories *)
Module Samples.
Import Concrete.

(** The marker field [Entity `dosa:"..."`]. *)
Definition marker (tag : string) : Field :=
  mkField [] (Ident "Entity") (Some (mk_tag "dosa" tag)).

(** A record whose first field is a [[]byte] carrying a dosa tag. *)
Definition byte_first_record : list Field :=
  [mkField ["Data"] (ArrayType None (Ident "byte"))
     (Some (mk_tag "dosa" "primaryKey=Data"))].

(** The field [Name string]. *)
Definition name_field : Field := mkField ["Name"] (Ident "string") None.

(** A field of an unsupported type tagged with the ignore sentinel. *)
Definition ignored_field : Field :=
  mkField ["Skip"] OtherExpr (Some (mk_tag "dosa" "-")).

(** An unexported field of an unsupported type. *)
Definition lower_field : Field := mkField ["count"] OtherExpr None.

Definition user_record : list Field :=
  [marker "primaryKey=Name"; name_field; ignored_field; lower_field].

(** Two marker fields naming the entity differently. *)
Definition two_marker_record : list Field :=
  [marker "primaryKey=Name, name=first"; name_field;
   marker "primaryKey=Name, name=second"].

(** Two fields binding the same name [A] under different column names. *)
Definition dup_record : list Field :=
  [marker "primaryKey=A";
   mkField ["A"] (Ident "string") (Some (mk_tag "dosa" "name=x"));
   mkField ["A"] (Ident "string") (Some (mk_tag "dosa" "name=y"))].

(** An embedded field of the qualified type [dosa.Entity], carrying a
    marker tag. *)
Definition qualified_marker : Field :=
  mkField [] (SelectorExpr (Ident "dosa") "Entity")
    (Some (mk_tag "dosa" "primaryKey=Name")).

(** An exported field of an unsupported type. *)
Definition bad_type_field : Field := mkField ["Count"] OtherExpr None.

(** A file declaring two records at top level, and a file declaring a
    record inside a compound statement of a function body. *)
Definition sample_dir : list (string * option (list Decl)) :=
  [("user.go", Some [GenDecl [TypeSpec "User" (StructType user_record);
                              TypeSpec "Dup" (StructType dup_record)]]);
   ("main.go", Some [FuncDecl (Some [OtherStmt
      [DeclStmt (GenDecl [TypeSpec "Hidden" (StructType user_record)])]])])].

(** The concrete collaborators, with a [parseField] refusing every field. *)
Definition refusing_externals : Externals :=
  Build_Externals "Entity" "dosa" tag_get first_rune_is_lower filepath_match
    (parse_dir []) NormalizeName parseEntityTag
    (fun _ _ _ => Err (Errorf "bad field tag" [])) translateKeyName EnsureValid.

(** A record whose first field is a pointer carrying a dosa tag. *)
Definition pointer_first_record : list Field :=
  [mkField ["Owner"] (StarExpr (Ident "User"))
     (Some (mk_tag "dosa" "primaryKey=Owner"))].

(** A record binding four exported names, two of them in one field. *)
Definition multi_record : list Field :=
  [marker "primaryKey=Name"; name_field;
   mkField ["Email"] (Ident "string") (Some (mk_tag "dosa" "name=mail"));
   mkField ["Age"; "Score"] (Ident "int64") None; lower_field].

(** A directory holding one file that does not parse. *)
Definition broken_dir : list (string * option (list Decl)) :=
  [("broken.go", None)].

End Samples.

(** ** Theorems *)

Lemma dosa_type_eqb_eq a b : DosaType.eqb a b = true <-> a = b.
Proof. destruct a, b; simpl; split; congruence. Qed.

(** C4: [stringToDosaType] is the exact, case-sensitive lookup of its
    label in the table of the eight known labels, each naming a distinct
    non-Invalid member of [dosa.Type]; every other label gives Invalid. *)
Theorem C4_stringToDosaType_exact (s : string) :
  (forall ty, ty <> DosaType.Invalid ->
     (stringToDosaType s = ty <-> In (s, ty) known_labels)) /\
  (stringToDosaType s = DosaType.Invalid <-> ~ In s (map fst known_labels)) /\
  (forall ty, ty <> DosaType.Invalid -> exists lbl, stringToDosaType lbl = ty).
Proof.
  split; [|split].
  - intros ty Hty. unfold stringToDosaType.
    repeat match goal with
    | |- context [String.eqb ?a ?b] => destruct (String.eqb_spec a b); [subst|]
    end; simpl; split.
    all: try (intros <-; tauto).
    all: intros H; repeat destruct H as [H|H]; inversion H; subst;
         first [reflexivity | congruence | tauto].
  - unfold stringToDosaType.
    repeat match goal with
    | |- context [String.eqb ?a ?b] => destruct (String.eqb_spec a b); [subst|]
    end; simpl; split.
    all: try discriminate.
    all: try (intros H; exfalso; apply H; tauto).
    all: try (intros _; reflexivity).
    intros _ H; repeat destruct H as [H|H]; congruence.
  - intros ty Hty; destruct ty; [congruence| ..].
    + exists "UUID"; reflexivity.
    + exists "string"; reflexivity.
    + exists "int32"; reflexivity.
    + exists "int64"; reflexivity.
    + exists "float64"; reflexivity.
    + exists "[]byte"; reflexivity.
    + exists "time.Time"; reflexivity.
    + exists "bool"; reflexivity.
Qed.

Lemma concrete_match_error_unmatched (dir : list (string * option (list Decl))) :
  forall p n e,
    snd (@filepath_match (Concrete.externals dir) p n) = Some e ->
    fst (@filepath_match (Concrete.externals dir) p n) = false.
Proof.
  intros p n e. simpl. unfold Concrete.filepath_match.
  destruct (existsb _ _); simpl; [reflexivity | discriminate].
Qed.

(** C9: when the parser reports an error, [FindEntities] returns no
    entities, no warnings and that error as its fatal error. *)
Theorem C9_parse_error_fatal `{X : Externals} (path excludes : string) (err : error) :
  parse_dir path (include_file excludes) = Err err ->
  FindEntities path excludes = ([], [], Some err).
Proof. intros H. unfold FindEntities. rewrite H. reflexivity. Qed.

Lemma C9_witness :
  @parse_dir (Concrete.externals Samples.broken_dir) "."
    (@include_file (Concrete.externals Samples.broken_dir) "")
  = Err (Errorf "%s: syntax error" ["broken.go"]) /\
  @FindEntities (Concrete.externals Samples.broken_dir) "." ""
  = ([], [], Some (Errorf "%s: syntax error" ["broken.go"])).
Proof.
  split; [reflexivity|].
  apply (C9_parse_error_fatal (X := Concrete.externals Samples.broken_dir)).
  reflexivity.
Defined.

(** C10: when [filepath.Match] reports an error for the exclusion
    pattern (with [matched] false, as Go's [filepath.Match] does on every
    error), the error is dropped and the file is included; and a fatal
    error of [FindEntities] is always the parser's own error. *)
Theorem C10_bad_pattern_includes `{X : Externals} (path excludes name : string) (e : error) :
  (forall p n e', snd (filepath_match p n) = Some e' -> fst (filepath_match p n) = false) ->
  snd (filepath_match excludes name) = Some e ->
  include_file excludes name = true /\
  (forall ents warns err,
     FindEntities path excludes = (ents, warns, Some err) ->
     parse_dir path (include_file excludes) = Err err).
Proof.
  intros Hgo He. split.
  - unfold include_file. destruct (String.eqb excludes ""); [reflexivity|].
    pose proof (Hgo _ _ _ He) as Hm.
    destruct (filepath_match excludes name) as [matched err']; simpl in *.
    subst matched. reflexivity.
  - intros ents warns err. unfold FindEntities.
    destruct (parse_dir path (include_file excludes)); [discriminate|].
    intros H; injection H; intros; subst; reflexivity.
Qed.

Lemma C10_witness :
  snd (@filepath_match (Concrete.externals []) "[" "main.go")
    = Some (Errorf "syntax error in pattern" []) /\
  @include_file (Concrete.externals []) "[" "main.go" = true.
Proof.
  split; [reflexivity|].
  apply (C10_bad_pattern_includes (X := Concrete.externals []) "." "[" "main.go"
           (Errorf "syntax error in pattern" [])).
  - apply concrete_match_error_unmatched.
  - reflexivity.
Defined.

(** C1 (as stated, refuted): a record whose first field is a [[]byte],
    not the marker type, but carries a non-empty dosa tag is accepted by
    [isDosaEntity], and [Visit] invokes the translator on it, recording a
    warning. *)
Lemma C1_counterexample :
  @isDosaEntity (Concrete.externals []) Samples.byte_first_record = true /\
  Warnings (fst (@Visit (Concrete.externals []) (mkVisitor [] [])
                   (NSpec (TypeSpec "Blob" (StructType Samples.byte_first_record)))))
  <> [].
Proof. vm_compute. split; [reflexivity | discriminate]. Qed.

(** C1 (amended): [isDosaEntity] rejects a record with no field, a record
    whose first field's type is a plain identifier other than the marker
    type, and a record whose first field has no string tag with a
    non-empty marker-key value; [Visit] then leaves the visitor unchanged
    whatever the translator, so the translator is not invoked.  A first
    field whose type is not a plain identifier is not type-checked: with
    a string tag carrying a non-empty marker-key value the record is
    accepted, and [Visit] records its translation. *)
Theorem C1_isDosaEntity_rejects `{X : Externals} (fields : list Field)
  (tr : string -> list Field -> result Table) (f : EntityRecordingVisitor)
  (name : string) :
  (rejected_shape fields ->
   isDosaEntity fields = false /\
   Visit_with tr f (NSpec (TypeSpec name (StructType fields))) = (f, false)) /\
  (forall fld rest lit, fields = fld :: rest ->
   (forall n, field_type fld <> Ident n) ->
   field_tag fld = Some lit -> Kind lit = STRING ->
   tag_get (trim_backquotes (Value lit)) dosaTagKey <> "" ->
   isDosaEntity fields = true /\
   Visit_with tr f (NSpec (TypeSpec name (StructType fields))) =
     (record f (tr name fields), false)).
Proof.
  split.
  - intros Hrej.
    assert (Hf : isDosaEntity fields = false).
    { destruct fields as [|fld rest]; [reflexivity|].
      simpl in Hrej. unfold isDosaEntity.
      destruct Hrej as [[n [Hty Hn]] | [Htag | [lit [Htag [Hk | Hv]]]]].
      - rewrite Hty. apply String.eqb_neq in Hn. rewrite Hn. reflexivity.
      - rewrite Htag. destruct (field_type fld); try reflexivity;
          destruct (negb _); reflexivity.
      - rewrite Htag. destruct (Kind lit); [congruence| |];
          destruct (field_type fld); try reflexivity; destruct (negb _); reflexivity.
      - rewrite Htag, Hv. destruct (Kind lit);
          destruct (field_type fld); try reflexivity; destruct (negb _); reflexivity. }
    split; [exact Hf|]. simpl. rewrite Hf. reflexivity.
  - intros fld rest lit -> Hty Htag Hk Hv.
    assert (Ht : isDosaEntity (fld :: rest) = true).
    { unfold isDosaEntity. rewrite Htag, Hk.
      apply String.eqb_neq in Hv. rewrite Hv.
      destruct (field_type fld) eqn:E; try reflexivity.
      exfalso. exact (Hty _ eq_refl). }
    split; [exact Ht|]. unfold Visit_with. rewrite Ht. reflexivity.
Qed.

Lemma C1_witness :
  let X := Concrete.externals [] in
  (rejected_shape [Samples.name_field] /\ isDosaEntity [Samples.name_field] = false) /\
  (isDosaEntity Samples.pointer_first_record = true /\
   Visit (mkVisitor [] []) (NSpec (TypeSpec "Ptr" (StructType Samples.pointer_first_record)))
   = (record (mkVisitor [] [])
        (tableFromStructType "Ptr" Samples.pointer_first_record), false)).
Proof.
  intros X. split.
  - assert (Hr : rejected_shape [Samples.name_field]).
    { left. exists "string". split; [reflexivity|discriminate]. }
    split; [exact Hr|].
    exact (proj1 (proj1 (C1_isDosaEntity_rejects (X := X) [Samples.name_field]
             tableFromStructType (mkVisitor [] []) "Named") Hr)).
  - exact (proj2 (C1_isDosaEntity_rejects (X := X) Samples.pointer_first_record
             tableFromStructType (mkVisitor [] []) "Ptr")
             _ [] _ eq_refl (fun n => ltac:(discriminate)) eq_refl eq_refl
             ltac:(vm_compute; discriminate)).
Defined.

(** ** The walk records the translation of each candidate in order *)

Section WalkFacts.
Context `{X : Externals}.
Variable tr : string -> list Field -> result Table.

Lemma replay_app (l1 l2 : list (string * list Field)) f :
  replay tr (l1 ++ l2) f = replay tr l2 (replay tr l1 f).
Proof. unfold replay. apply fold_left_app. Qed.

Lemma visit_spec_replay (sp : Spec) f :
  fst (Visit_with tr f (NSpec sp)) = replay tr (spec_candidates sp) f.
Proof.
  destruct sp as [name ty | | ]; try reflexivity.
  destruct ty; try reflexivity. simpl.
  destruct (isDosaEntity Fields); reflexivity.
Qed.

Lemma walk_decl_replay : forall d f, walk_decl tr f d = replay tr (decl_candidates d) f
with walk_stmt_replay : forall s f, walk_stmt tr f s = replay tr (stmt_candidates s) f.
Proof.
  - intros d f. destruct d as [specs | [body|] | ]; simpl; try reflexivity.
    + revert f. induction specs as [|sp specs IH]; intros f; [reflexivity|].
      simpl. rewrite replay_app, <- visit_spec_replay. apply IH.
    + revert f. revert body. fix go 1. intros [|s rest] f; [reflexivity|].
      simpl. rewrite walk_stmt_replay, replay_app. apply go.
  - intros s f. destruct s as [d | l | l]; simpl.
    + apply walk_decl_replay.
    + revert f. revert l. fix go 1. intros [|s rest] f; [reflexivity|].
      simpl. rewrite walk_stmt_replay, replay_app. apply go.
    + reflexivity.
Qed.

Lemma walk_decls_replay (ds : list Decl) f :
  fold_left (walk_decl tr) ds f = replay tr (flat_map decl_candidates ds) f.
Proof.
  revert f. induction ds as [|d ds IH]; intros f; [reflexivity|].
  simpl. rewrite replay_app, <- walk_decl_replay. apply IH.
Qed.

Lemma replay_split (cands : list (string * list Field)) f :
  let rs := map (fun c => tr (fst c) (snd c)) cands in
  replay tr cands f = mkVisitor (Entities f ++ oks rs) (Warnings f ++ errs rs).
Proof.
  revert f. induction cands as [|c cands IH]; intros f; simpl.
  - destruct f; simpl. rewrite !app_nil_r. reflexivity.
  - unfold replay in *. simpl. rewrite IH.
    destruct (tr (fst c) (snd c)); simpl; rewrite <- ?app_assoc; reflexivity.
Qed.

End WalkFacts.

(** C3: on a candidate, [Visit] appends the translated table to the
    entities when translation succeeds and the error to the warnings when
    it fails (an error carries no partial table); walking a list of
    declarations records, in order, the outcome of every candidate, so a
    failure does not stop the scan. *)
Theorem C3_failures_become_warnings `{X : Externals} (f : EntityRecordingVisitor)
  (ds : list Decl) :
  (forall name fields, isDosaEntity fields = true ->
     Visit f (NSpec (TypeSpec name (StructType fields))) =
       (match tableFromStructType name fields with
        | Ok t => mkVisitor (Entities f ++ [t]) (Warnings f)
        | Err e => mkVisitor (Entities f) (Warnings f ++ [e])
        end, false)) /\
  fold_left (walk_decl tableFromStructType) ds f =
    (let rs := map (fun c => tableFromStructType (fst c) (snd c))
                   (flat_map decl_candidates ds) in
     mkVisitor (Entities f ++ oks rs) (Warnings f ++ errs rs)).
Proof.
  split.
  - intros name fields H. unfold Visit. simpl. rewrite H. reflexivity.
  - rewrite walk_decls_replay. apply replay_split.
Qed.

(** ** Facts about the translator *)

Section TranslatorFacts.
Context `{X : Externals}.

Lemma fields_loop_app (structName : string) (l1 l2 : list Field) (t : Table) :
  fields_loop structName t (l1 ++ l2) =
  bind (fields_loop structName t l1) (fun t' => fields_loop structName t' l2).
Proof.
  revert t. induction l1 as [|fld l1 IH]; intros t; [reflexivity|].
  simpl. destruct (field_step structName t fld); simpl; [apply IH|reflexivity].
Qed.

Lemma table_ok_inv (structName : string) (fields : list Field) (t : Table) :
  tableFromStructType structName fields = Ok t ->
  exists nn tl,
    NormalizeName structName = Ok nn /\
    fields_loop structName (mkTable structName nn None [] ∅ ∅) fields = Ok tl /\
    t = set_key tl (translateKeyName tl) /\
    EnsureValid t = None.
Proof.
  unfold tableFromStructType.
  destruct (NormalizeName structName) as [nn|e]; [|discriminate].
  destruct (fields_loop _ _ _) as [tl|e] eqn:Hl; simpl; [|discriminate].
  destruct (EnsureValid _) eqn:Hv; [discriminate|].
  intros H; injection H as <-. exists nn, tl. repeat split; auto.
Qed.

(** A property of tables kept by setting the name and key and by adding
    a column of an exported name with a valid type holds after the loop. *)
Lemma add_columns_preserves (P : Table -> Prop) :
  (forall t name typ tag cd, P t -> first_rune_is_lower name = false ->
     typ <> DosaType.Invalid -> parseField typ name tag = Ok cd ->
     P (add_column t name cd)) ->
  forall kind tag names t t',
    P t -> add_columns kind tag names t = Ok t' -> P t'.
Proof.
  intros Hadd kind tag names. induction names as [|name names IH]; intros t t' Ht H.
  - injection H as <-. exact Ht.
  - simpl in H. destruct (first_rune_is_lower name) eqn:Hl; [eapply IH; eauto|].
    destruct (DosaType.eqb (stringToDosaType kind) DosaType.Invalid) eqn:Hi;
      [discriminate|].
    destruct (parseField (stringToDosaType kind) name tag) as [cd|e] eqn:Hp;
      [|discriminate].
    eapply IH; [|exact H]. eapply Hadd; eauto.
    intros E. rewrite E in Hi. discriminate.
Qed.

Lemma fields_loop_preserves (P : Table -> Prop) :
  (forall t n k, P t -> P (set_name_key t n k)) ->
  (forall t name typ tag cd, P t -> first_rune_is_lower name = false ->
     typ <> DosaType.Invalid -> parseField typ name tag = Ok cd ->
     P (add_column t name cd)) ->
  forall structName fields t t',
    P t -> fields_loop structName t fields = Ok t' -> P t'.
Proof.
  intros Hset Hadd structName fields.
  induction fields as [|fld fields IH]; intros t t' Ht H.
  - injection H as <-. exact Ht.
  - simpl in H. destruct (field_step structName t fld) as [t1|e] eqn:Hs;
      [|discriminate].
    apply (IH t1); [|exact H].
    unfold field_step in Hs.
    destruct (String.eqb (field_dosa_tag fld) "-"); [injection Hs as <-; exact Ht|].
    destruct (String.eqb (field_kind (field_type fld)) entityName).
    + destruct (parseEntityTag _ _) as [[n k]|e]; simpl in Hs; [|discriminate].
      injection Hs as <-. apply Hset, Ht.
    + eapply add_columns_preserves; eauto.
Qed.

Lemma add_columns_name_key kind tag names t t' :
  add_columns kind tag names t = Ok t' -> Name t' = Name t /\ Key t' = Key t.
Proof.
  apply (add_columns_preserves (fun t' => Name t' = Name t /\ Key t' = Key t)); auto.
Qed.

Lemma add_columns_drop_lower kind tag names t :
  add_columns kind tag names t =
  add_columns kind tag (List.filter (fun n => negb (first_rune_is_lower n)) names) t.
Proof.
  revert t. induction names as [|name names IH]; intros t; [reflexivity|].
  simpl. destruct (first_rune_is_lower name) eqn:E; simpl; rewrite ?E;
    [apply IH|].
  destruct (DosaType.eqb _ _); [reflexivity|].
  destruct (parseField _ _ _); [apply IH|reflexivity].
Qed.

Lemma field_step_drop_lower structName t fld :
  field_step structName t fld = field_step structName t (drop_lower_names fld).
Proof.
  destruct fld as [names ty tg]. unfold field_step, drop_lower_names. simpl.
  unfold field_dosa_tag. simpl.
  destruct (String.eqb _ "-"); [reflexivity|].
  destruct (String.eqb _ entityName); [reflexivity|].
  apply add_columns_drop_lower.
Qed.

Lemma fields_loop_drop_lower structName fields t :
  fields_loop structName t fields =
  fields_loop structName t (map drop_lower_names fields).
Proof.
  revert t. induction fields as [|fld fields IH]; intros t; [reflexivity|].
  simpl. rewrite <- field_step_drop_lower.
  destruct (field_step structName t fld); simpl; [apply IH|reflexivity].
Qed.

End TranslatorFacts.

Section TranslatorFacts2.
Context `{X : Externals}.

Lemma add_columns_valid_kind kind tag names t t' name :
  add_columns kind tag names t = Ok t' -> In name names ->
  first_rune_is_lower name = false ->
  stringToDosaType kind <> DosaType.Invalid.
Proof.
  revert t. induction names as [|n names IH]; intros t H Hin Hl; [destruct Hin|].
  simpl in H. destruct Hin as [<-|Hin].
  - rewrite Hl in H.
    destruct (DosaType.eqb (stringToDosaType kind) DosaType.Invalid) eqn:Hi;
      [discriminate|].
    intros E. rewrite E in Hi. discriminate.
  - destruct (first_rune_is_lower n); [eapply IH; eauto|].
    destruct (DosaType.eqb _ _); [discriminate|].
    destruct (parseField _ _ _); [eapply IH; eauto|discriminate].
Qed.

Lemma fields_loop_valid_kind structName fields t t' fld name :
  fields_loop structName t fields = Ok t' -> In fld fields ->
  ignored fld = false -> is_marker fld = false ->
  In name (field_names fld) -> first_rune_is_lower name = false ->
  stringToDosaType (field_kind (field_type fld)) <> DosaType.Invalid.
Proof.
  revert t. induction fields as [|f fields IH]; intros t H Hin Hig Hm Hn Hl;
    [destruct Hin|].
  simpl in H. destruct (field_step structName t f) as [t1|e] eqn:Hs;
    [|discriminate].
  destruct Hin as [<-|Hin]; [|eapply IH; eauto].
  unfold field_step in Hs. unfold ignored, is_marker in *.
  rewrite Hig, Hm in Hs. eapply add_columns_valid_kind; eauto.
Qed.

Lemma fields_loop_no_marker structName l t t' :
  Forall (fun fld => ignored fld = true \/ is_marker fld = false) l ->
  fields_loop structName t l = Ok t' -> Name t' = Name t /\ Key t' = Key t.
Proof.
  intros Hl. revert t. induction Hl as [|fld l Hf Hl IH]; intros t E.
  - injection E as <-. auto.
  - simpl in E. destruct (field_step structName t fld) as [t1|e] eqn:Hs;
      simpl in E; [|discriminate].
    destruct (IH t1 E) as [-> ->].
    unfold field_step in Hs. unfold ignored, is_marker in Hf.
    destruct (String.eqb (field_dosa_tag fld) "-"); [injection Hs as <-; auto|].
    destruct Hf as [Hf|Hf]; [discriminate|]. rewrite Hf in Hs.
    exact (add_columns_name_key _ _ _ _ _ Hs).
Qed.

End TranslatorFacts2.

Lemma concrete_parseField_type dir :
  forall typ name tag cd,
    @parseField (Concrete.externals dir) typ name tag = Ok cd -> ColType cd = typ.
Proof.
  intros typ name tag cd. simpl. unfold Concrete.parseField.
  intros H. injection H as <-. reflexivity.
Qed.

(** Evaluates the translation in an [exists t, tr = Ok t /\ _] goal,
    leaving the equation as [E]. *)
Ltac eval_ok E :=
  match goal with
  | |- exists t, ?lhs = Ok t /\ _ =>
      destruct lhs as [t|e] eqn:E;
      [exists t; split; [reflexivity|] | vm_compute in E; discriminate]
  end.

(** C2: every column of a table the translator returns has a type other
    than Invalid, and a non-ignored, non-marker field binding an exported
    name whose type label maps to Invalid never lets translation succeed.
    The column's type is the one [parseField] receives (dosa's
    [parseField] is not in finder.go). *)
Theorem C2_no_invalid_columns `{X : Externals} (structName : string)
  (fields : list Field) (t : Table) :
  (forall typ name tag cd, parseField typ name tag = Ok cd -> ColType cd = typ) ->
  tableFromStructType structName fields = Ok t ->
  Forall (fun cd => ColType cd <> DosaType.Invalid) (Columns t) /\
  (forall fld name, In fld fields -> ignored fld = false -> is_marker fld = false ->
     In name (field_names fld) -> first_rune_is_lower name = false ->
     stringToDosaType (field_kind (field_type fld)) <> DosaType.Invalid).
Proof.
  intros Hpf H.
  destruct (table_ok_inv _ _ _ H) as (nn & tl & _ & Hl & -> & _).
  split.
  - simpl.
    apply (fields_loop_preserves
             (fun t => Forall (fun cd => ColType cd <> DosaType.Invalid) (Columns t)))
      with (structName := structName) (fields := fields)
           (t := mkTable structName nn None [] ∅ ∅); auto.
    intros t0 name typ tag cd Ht _ Hty Hp. simpl.
    apply Forall_app; split; [exact Ht|].
    constructor; [|constructor]. rewrite (Hpf _ _ _ _ Hp). exact Hty.
  - intros fld name. eapply fields_loop_valid_kind; eauto.
Qed.

Lemma C2_witness :
  exists t, @tableFromStructType (Concrete.externals []) "User" Samples.user_record = Ok t /\
    Forall (fun cd => ColType cd <> DosaType.Invalid) (Columns t).
Proof.
  eval_ok E.
  exact (proj1 (C2_no_invalid_columns (X := Concrete.externals []) "User"
                  Samples.user_record t (concrete_parseField_type []) E)).
Defined.

(** C6: a field whose marker-key tag value is exactly "-" is skipped by
    the translator: the translation of the record is the translation of
    the record without that field (no column, no mapping entry, no
    error). *)
Theorem C6_ignored_field_skipped `{X : Externals} (structName : string)
  (l1 l2 : list Field) (fld : Field) (lit : BasicLit) :
  field_tag fld = Some lit ->
  tag_get (trim_backquotes (Value lit)) dosaTagKey = "-" ->
  tableFromStructType structName (l1 ++ fld :: l2) =
  tableFromStructType structName (l1 ++ l2).
Proof.
  intros Htag Hv.
  assert (Hs : forall t, field_step structName t fld = Ok t).
  { intros t. unfold field_step, field_dosa_tag. rewrite Htag, Hv. reflexivity. }
  unfold tableFromStructType.
  destruct (NormalizeName structName) as [nn|e]; [|reflexivity].
  rewrite !fields_loop_app.
  destruct (fields_loop structName _ l1) as [t1|e]; simpl; [|reflexivity].
  rewrite Hs. reflexivity.
Qed.

Lemma C6_witness :
  field_tag Samples.ignored_field = Some (Concrete.mk_tag "dosa" "-") /\
  @tableFromStructType (Concrete.externals []) "User"
    ([Samples.marker "primaryKey=Name"; Samples.name_field] ++
       Samples.ignored_field :: [Samples.lower_field])
  = @tableFromStructType (Concrete.externals []) "User"
      ([Samples.marker "primaryKey=Name"; Samples.name_field] ++ [Samples.lower_field]).
Proof.
  split; [reflexivity|].
  apply (C6_ignored_field_skipped (X := Concrete.externals []) "User" _ _ _
           (Concrete.mk_tag "dosa" "-")); vm_compute; reflexivity.
Defined.

(** C7: names whose first rune is lower case are skipped without effect:
    translating the record gives the same result (same table, same error)
    as translating it with those names removed, and a returned table maps
    no such name in either direction. *)
Theorem C7_unexported_names_skipped `{X : Externals} (structName : string)
  (fields : list Field) :
  tableFromStructType structName fields =
  tableFromStructType structName (map drop_lower_names fields) /\
  (forall t n, tableFromStructType structName fields = Ok t ->
     first_rune_is_lower n = true ->
     FieldToCol t !! n = None /\ forall c, ColToField t !! c <> Some n).
Proof.
  split.
  - unfold tableFromStructType.
    destruct (NormalizeName structName); [|reflexivity].
    rewrite <- fields_loop_drop_lower. reflexivity.
  - intros t n H Hn.
    destruct (table_ok_inv _ _ _ H) as (nn & tl & _ & Hl & -> & _). simpl.
    refine (fields_loop_preserves
              (fun t => FieldToCol t !! n = None /\ forall c, ColToField t !! c <> Some n)
              _ _ structName fields _ _ _ Hl).
    + intros t0 n0 k0 Ht0. exact Ht0.
    + intros t0 name typ tag cd [H1 H2] Hlow _ _. simpl.
      assert (Hne : name <> n) by (intros ->; congruence).
      split.
      * rewrite lookup_insert_ne by congruence. exact H1.
      * intros c. destruct (decide (c = ColName cd)) as [->|Hc].
        -- rewrite lookup_insert_eq. congruence.
        -- rewrite lookup_insert_ne by congruence. apply H2.
    + simpl. split; [apply lookup_empty|]. intros c. rewrite lookup_empty. discriminate.
Qed.

(** C8: a later marker field overwrites the entity name and key set by an
    earlier one: when the last non-ignored marker field of a record parses
    to [(n, k)], a successful translation has the name [n], and its key is
    [translateKeyName] applied to the loop's final table, whose name is [n]
    and key is [k]. *)
Theorem C8_last_marker_wins `{X : Externals} (structName : string)
  (l1 l2 : list Field) (m : Field) (n : string) (k : option PrimaryKey) (t : Table) :
  ignored m = false -> is_marker m = true ->
  parseEntityTag structName (field_dosa_tag m) = Ok (n, k) ->
  Forall (fun fld => ignored fld = true \/ is_marker fld = false) l2 ->
  tableFromStructType structName (l1 ++ m :: l2) = Ok t ->
  Name t = n /\
  exists tl, Name tl = n /\ Key tl = k /\ t = set_key tl (translateKeyName tl).
Proof.
  intros Hig Hm Hp Hl2 H.
  destruct (table_ok_inv _ _ _ H) as (nn & tl & _ & Hl & -> & _).
  rewrite fields_loop_app in Hl.
  destruct (fields_loop structName _ l1) as [t1|e]; simpl in Hl; [|discriminate].
  destruct (field_step structName t1 m) as [t2|e] eqn:Hs; simpl in Hl;
    [|discriminate].
  unfold field_step in Hs. unfold ignored, is_marker in *.
  rewrite Hig, Hm, Hp in Hs. simpl in Hs. injection Hs as <-.
  destruct (fields_loop_no_marker _ _ _ _ Hl2 Hl) as [Hn Hk].
  simpl in Hn, Hk. split; [exact Hn|]. exists tl. auto.
Qed.

Lemma C8_witness :
  exists t, @tableFromStructType (Concrete.externals []) "User"
              Samples.two_marker_record = Ok t /\ Name t = "second".
Proof.
  eval_ok E.
  refine (proj1 (C8_last_marker_wins (X := Concrete.externals []) "User"
             [Samples.marker "primaryKey=Name, name=first"; Samples.name_field] []
             (Samples.marker "primaryKey=Name, name=second")
             "second" (Some (mkPrimaryKey ["Name"] [])) t _ _ _ _ E));
    vm_compute; try reflexivity. constructor.
Defined.

(** ** The mapping tables *)

Section MappingTables.
Context `{X : Externals}.

Lemma add_column_agree t ns name cd :
  tables_agree t ns -> ~ In name ns -> ~ In (ColName cd) (map ColName (Columns t)) ->
  tables_agree (add_column t name cd) (ns ++ [name]).
Proof.
  intros (H1 & H2 & H3) Hn Hc. unfold add_column, tables_agree; simpl.
  split; [|split].
  - intros n. rewrite in_app_iff. simpl.
    destruct (decide (n = name)) as [->|Hne].
    + rewrite lookup_insert_eq. split; [tauto|discriminate].
    + rewrite lookup_insert_ne by congruence. rewrite H1. intuition congruence.
  - intros c. rewrite map_app, in_app_iff. simpl.
    destruct (decide (c = ColName cd)) as [->|Hne].
    + rewrite lookup_insert_eq. split; [tauto|discriminate].
    + rewrite lookup_insert_ne by congruence. rewrite H2. intuition congruence.
  - intros c n.
    destruct (decide (c = ColName cd)) as [->|Hc']; destruct (decide (n = name)) as [->|Hn'].
    + rewrite !lookup_insert_eq. tauto.
    + rewrite lookup_insert_eq, lookup_insert_ne by congruence. split.
      * intros E; injection E as E; congruence.
      * intros E. apply H3 in E. exfalso. apply Hc, H2. congruence.
    + rewrite lookup_insert_ne by congruence. rewrite lookup_insert_eq. split.
      * intros E. apply H3 in E. exfalso. apply Hn, H1. congruence.
      * intros E; injection E as E; congruence.
    + rewrite !lookup_insert_ne by congruence. apply H3.
Qed.

Lemma add_columns_grow kind tag names t t' :
  add_columns kind tag names t = Ok t' -> exists cs : list ColumnDefinition, Columns t' = app (Columns t) cs.
Proof.
  apply (add_columns_preserves (fun t' => exists cs : list ColumnDefinition, Columns t' = app (Columns t) cs)).
  - intros t0 name typ tg cd [cs Hcs] _ _ _. exists (app cs [cd]). simpl.
    rewrite Hcs, app_assoc. reflexivity.
  - exists []. rewrite app_nil_r. reflexivity.
Qed.

Lemma fields_loop_grow structName fields t t' :
  fields_loop structName t fields = Ok t' -> exists cs : list ColumnDefinition, Columns t' = app (Columns t) cs.
Proof.
  apply (fields_loop_preserves (fun t' => exists cs : list ColumnDefinition, Columns t' = app (Columns t) cs)).
  - intros t0 n k H. exact H.
  - intros t0 name typ tg cd [cs Hcs] _ _ _. exists (app cs [cd]). simpl.
    rewrite Hcs, app_assoc. reflexivity.
  - exists []. rewrite app_nil_r. reflexivity.
Qed.

Definition exported (names : list string) : list string :=
  List.filter (fun n => negb (first_rune_is_lower n)) names.

Lemma add_columns_agree kind tag names : forall t t' ns,
  add_columns kind tag names t = Ok t' -> tables_agree t ns ->
  List.NoDup (ns ++ exported names) -> List.NoDup (map ColName (Columns t')) ->
  tables_agree t' (ns ++ exported names).
Proof.
  unfold exported.
  induction names as [|name names IH]; intros t t' ns H Ht Hnd Hcols.
  - injection H as <-. simpl. rewrite app_nil_r. exact Ht.
  - simpl in H, Hnd |- *. destruct (first_rune_is_lower name) eqn:Hl;
      simpl in Hnd |- *.
    + eapply IH; eauto.
    + destruct (DosaType.eqb _ _); [discriminate|].
      destruct (parseField _ _ _) as [cd|e]; [|discriminate].
      set (L := List.filter (fun n => negb (first_rune_is_lower n)) names) in *.
      replace (app ns (name :: L)) with (app (app ns [name]) L)
        by (rewrite <- app_assoc; reflexivity).
      destruct (add_columns_grow _ _ _ _ _ H) as [cs Hcs].
      apply (IH (add_column t name cd)); [exact H| | |exact Hcols].
      * apply add_column_agree; [exact Ht| |].
        -- intros Hin. apply (List.NoDup_remove_2 ns L name Hnd).
           apply in_or_app. left. exact Hin.
        -- rewrite Hcs in Hcols. simpl in Hcols.
           rewrite <- app_assoc, map_app in Hcols. simpl in Hcols.
           intros Hin. apply (List.NoDup_remove_2 _ _ _ Hcols).
           apply in_or_app. left. exact Hin.
      * rewrite <- app_assoc. exact Hnd.
Qed.

Lemma fields_loop_agree structName fields : forall t t' ns,
  fields_loop structName t fields = Ok t' -> tables_agree t ns ->
  List.NoDup (ns ++ exported_names fields) -> List.NoDup (map ColName (Columns t')) ->
  tables_agree t' (ns ++ exported_names fields).
Proof.
  induction fields as [|fld fields IH]; intros t t' ns H Ht Hnd Hcols.
  - injection H as <-. simpl. rewrite app_nil_r. exact Ht.
  - simpl in H. destruct (field_step structName t fld) as [t1|e] eqn:Hs;
      simpl in H; [|discriminate].
    unfold field_step in Hs.
    assert (Hex : exported_names (fld :: fields) =
                  app (if ignored fld || is_marker fld then []
                       else exported (field_names fld)) (exported_names fields))
      by reflexivity.
    rewrite Hex in Hnd |- *. unfold ignored, is_marker in *.
    destruct (String.eqb (field_dosa_tag fld) "-") eqn:Hig; simpl in Hnd |- *.
    + injection Hs as <-. eapply IH; eauto.
    + destruct (String.eqb (field_kind (field_type fld)) entityName) eqn:Hm;
        simpl in Hnd |- *.
      * destruct (parseEntityTag _ _) as [[n k]|e]; simpl in Hs; [|discriminate].
        injection Hs as <-. eapply IH; eauto.
      * rewrite app_assoc. rewrite app_assoc in Hnd.
        destruct (fields_loop_grow _ _ _ _ H) as [cs Hcs].
        apply (IH t1); [exact H| |exact Hnd|exact Hcols].
        eapply add_columns_agree; [exact Hs|exact Ht| |].
        -- eapply NoDup_app_remove_r. exact Hnd.
        -- rewrite Hcs, map_app in Hcols. eapply NoDup_app_remove_r. exact Hcols.
Qed.

End MappingTables.

Lemma concrete_ensure_valid_nodup dir :
  forall t, @EnsureValid (Concrete.externals dir) t = None ->
            List.NoDup (map ColName (Columns t)).
Proof.
  intros t. simpl. unfold Concrete.EnsureValid.
  repeat case_bool_decide; try discriminate.
  intros _. apply NoDup_ListNoDup. assumption.
Qed.

(** C5 (as stated, refuted): Go's parser accepts a struct in which two
    fields bind the same name [A] (only the type checker rejects it);
    with the column names [x] and [y], the translated table maps column
    [x] to field [A] while field [A] maps to column [y]. *)
Lemma C5_counterexample :
  exists t, @tableFromStructType (Concrete.externals []) "Dup" Samples.dup_record = Ok t /\
    ColToField t !! "x" = Some "A" /\ FieldToCol t !! "A" = Some "y".
Proof.
  eval_ok E. vm_compute in E. injection E as <-.
  split; vm_compute; reflexivity.
Qed.

(** C5 (amended): when no name is bound twice among the non-ignored,
    non-marker fields and the final validity check rejects duplicate
    column names, the two tables of a returned table are inverse to each
    other and the field-to-column table has exactly the exported names of
    the non-ignored, non-marker fields as keys. *)
Theorem C5_tables_inverse `{X : Externals} (structName : string)
  (fields : list Field) (t : Table) :
  (forall t', EnsureValid t' = None -> List.NoDup (map ColName (Columns t'))) ->
  List.NoDup (exported_names fields) ->
  tableFromStructType structName fields = Ok t ->
  (forall c n, ColToField t !! c = Some n <-> FieldToCol t !! n = Some c) /\
  (forall n, FieldToCol t !! n <> None <-> In n (exported_names fields)).
Proof.
  intros Hv Hnd H.
  destruct (table_ok_inv _ _ _ H) as (nn & tl & _ & Hl & Ht & Hok).
  pose proof (Hv _ Hok) as Hcols. subst t. simpl in Hcols.
  assert (Hag : tables_agree tl (app [] (exported_names fields))).
  { eapply fields_loop_agree; [exact Hl| |exact Hnd|exact Hcols].
    split; [|split]; simpl.
    - intros n. rewrite lookup_empty. split; [congruence|tauto].
    - intros c. rewrite lookup_empty. split; [congruence|tauto].
    - intros c n. rewrite !lookup_empty. split; discriminate. }
  destruct Hag as (H1 & _ & H3). simpl. split; [exact H3|exact H1].
Qed.

Lemma C5_witness :
  let X := Concrete.externals [] in
  List.NoDup (exported_names Samples.multi_record) /\
  exists t, tableFromStructType "User" Samples.multi_record = Ok t /\
    (forall c n, ColToField t !! c = Some n <-> FieldToCol t !! n = Some c) /\
    (forall n, FieldToCol t !! n <> None <-> In n (exported_names Samples.multi_record)).
Proof.
  intros X.
  assert (Hnd : List.NoDup (exported_names Samples.multi_record)).
  { vm_compute. repeat constructor; simpl; intuition discriminate. }
  split; [exact Hnd|].
  eval_ok E.
  exact (C5_tables_inverse (X := X) "User" Samples.multi_record t
           (concrete_ensure_valid_nodup []) Hnd E).
Defined.

(** ** Further properties of the finder *)

Section ExtraFacts.
Context `{X : Externals}.

Lemma walk_files_flat (pkg : list (list Decl)) f :
  fold_left (fun erv file => fold_left (walk_decl tableFromStructType) file erv) pkg f =
  fold_left (walk_decl tableFromStructType) (concat pkg) f.
Proof.
  revert f. induction pkg as [|file pkg IH]; intros f; [reflexivity|].
  simpl. rewrite fold_left_app. apply IH.
Qed.

Lemma walk_packages_flat (packages : list (list (list Decl))) f :
  walk_packages f packages = fold_left (walk_decl tableFromStructType) (all_decls packages) f.
Proof.
  unfold walk_packages, all_decls. revert f.
  induction packages as [|pkg pkgs IH]; intros f; [reflexivity|].
  simpl. rewrite concat_app, fold_left_app, walk_files_flat. apply IH.
Qed.

Lemma translate_bind_loop structName nn l :
  NormalizeName structName = Ok nn ->
  tableFromStructType structName l =
  bind (fields_loop structName (mkTable structName nn None [] ∅ ∅) l)
    (fun t => let t' := set_key t (translateKeyName t) in
              match EnsureValid t' with
              | Some e => Err (Wrapf e "failed to parse dosa object" [])
              | None => Ok t'
              end).
Proof. intros Hn. unfold tableFromStructType. rewrite Hn. reflexivity. Qed.

Lemma step_err_translate structName nn l1 t1 fld l2 e :
  NormalizeName structName = Ok nn ->
  fields_loop structName (mkTable structName nn None [] ∅ ∅) l1 = Ok t1 ->
  field_step structName t1 fld = Err e ->
  tableFromStructType structName (app l1 (fld :: l2)) = Err e.
Proof.
  intros Hn H1 H2. rewrite (translate_bind_loop _ _ _ Hn), fields_loop_app, H1.
  simpl. rewrite H2. reflexivity.
Qed.

Lemma add_columns_skip_lower kind tag lowers names t :
  Forall (fun n => first_rune_is_lower n = true) lowers ->
  add_columns kind tag (app lowers names) t = add_columns kind tag names t.
Proof.
  intros Hl. induction Hl as [|n lowers Hn Hl IH]; [reflexivity|].
  simpl. rewrite Hn. exact IH.
Qed.

Lemma first_column_step structName t fld lowers name rest :
  ignored fld = false -> is_marker fld = false ->
  field_names fld = app lowers (name :: rest) ->
  Forall (fun n => first_rune_is_lower n = true) lowers ->
  first_rune_is_lower name = false ->
  field_step structName t fld =
  let kind := field_kind (field_type fld) in
  let typ := stringToDosaType kind in
  if DosaType.eqb typ DosaType.Invalid
  then Err (Errorf "Column %q has invalid type %q" [name; kind])
  else
    match parseField typ name (field_dosa_tag fld) with
    | Err e => Err (Wrapf e "column %q" [name])
    | Ok cd => add_columns kind (field_dosa_tag fld) rest (add_column t name cd)
    end.
Proof.
  intros Hig Hm Hnames Hl Hname. unfold field_step. unfold ignored, is_marker in *.
  rewrite Hig, Hm, Hnames, add_columns_skip_lower by exact Hl.
  simpl. rewrite Hname. reflexivity.
Qed.

Lemma add_columns_specs kind tag names : forall t t',
  add_columns kind tag names t = Ok t' ->
  exists cs, Columns t' = app (Columns t) cs /\
    Forall2 (fun cd sp => parseField (fst (fst sp)) (snd (fst sp)) (snd sp) = Ok cd) cs
      (map (fun n => (stringToDosaType kind, n, tag))
           (List.filter (fun n => negb (first_rune_is_lower n)) names)).
Proof.
  induction names as [|name names IH]; intros t t' H.
  - injection H as <-. exists []. rewrite app_nil_r. split; [reflexivity|constructor].
  - simpl in H |- *. destruct (first_rune_is_lower name) eqn:Hl; simpl.
    + exact (IH _ _ H).
    + destruct (DosaType.eqb (stringToDosaType kind) DosaType.Invalid); [discriminate|].
      destruct (parseField (stringToDosaType kind) name tag) as [cd|e] eqn:Hp;
        [|discriminate].
      destruct (IH _ _ H) as (cs & Hc & Hf). simpl in Hc.
      exists (cd :: cs). rewrite Hc, <- app_assoc. split; [reflexivity|].
      constructor; [exact Hp|exact Hf].
Qed.

Lemma fields_loop_specs structName fields : forall t t',
  fields_loop structName t fields = Ok t' ->
  exists cs, Columns t' = app (Columns t) cs /\
    Forall2 (fun cd sp => parseField (fst (fst sp)) (snd (fst sp)) (snd sp) = Ok cd) cs
      (column_specs fields).
Proof.
  induction fields as [|fld fields IH]; intros t t' H.
  - injection H as <-. exists []. rewrite app_nil_r. split; [reflexivity|constructor].
  - simpl in H. destruct (field_step structName t fld) as [t1|e] eqn:Hs;
      simpl in H; [|discriminate].
    destruct (IH _ _ H) as (cs2 & Hc2 & Hf2).
    unfold column_specs. simpl. fold (column_specs fields).
    unfold field_step in Hs. unfold ignored, is_marker.
    destruct (String.eqb (field_dosa_tag fld) "-"); simpl.
    + injection Hs as <-. exists cs2. auto.
    + destruct (String.eqb (field_kind (field_type fld)) entityName); simpl.
      * destruct (parseEntityTag _ _) as [[n k]|e]; simpl in Hs; [|discriminate].
        injection Hs as <-. exists cs2. auto.
      * destruct (add_columns_specs _ _ _ _ _ Hs) as (cs1 & Hc1 & Hf1).
        exists (app cs1 cs2). rewrite Hc2, Hc1, app_assoc.
        split; [reflexivity|]. apply Forall2_app; assumption.
Qed.

(** The loop reads a field only through its names, its dosa tag and the
    kind the type switch computes. *)
Lemma translate_field_congr structName l1 l2 fld1 fld2 :
  field_names fld1 = field_names fld2 ->
  field_dosa_tag fld1 = field_dosa_tag fld2 ->
  field_kind (field_type fld1) = field_kind (field_type fld2) ->
  tableFromStructType structName (app l1 (fld1 :: l2)) =
  tableFromStructType structName (app l1 (fld2 :: l2)).
Proof.
  intros Hn Ht Hk. unfold tableFromStructType.
  destruct (NormalizeName structName) as [nn|e]; [|reflexivity].
  rewrite !fields_loop_app.
  destruct (fields_loop structName _ l1) as [t1|e]; [|reflexivity]. simpl.
  unfold field_step. rewrite Hn, Ht, Hk. reflexivity.
Qed.

End ExtraFacts.

(** The entities and warnings of [FindEntities] on a directory that
    parses are the successful and the failed translations of all the
    candidates of all files, in order; together they number exactly the
    candidates. *)
Theorem FindEntities_outcomes `{X : Externals} (path excludes : string)
  (packages : list (list (list Decl))) :
  parse_dir path (include_file excludes) = Ok packages ->
  FindEntities path excludes =
    (oks (outcomes packages), errs (outcomes packages), None) /\
  length (oks (outcomes packages)) + length (errs (outcomes packages)) =
    length (flat_map decl_candidates (all_decls packages)).
Proof.
  intros Hp. split.
  - unfold FindEntities. rewrite Hp, walk_packages_flat, walk_decls_replay, replay_split.
    reflexivity.
  - unfold outcomes. rewrite <- (length_map (fun c => tableFromStructType (fst c) (snd c))).
    generalize (map (fun c => tableFromStructType (fst c) (snd c))
                  (flat_map decl_candidates (all_decls packages))) as rs.
    induction rs as [|[t|e] rs IH]; simpl; lia.
Qed.

Lemma FindEntities_outcomes_witness :
  let X := Concrete.externals Samples.sample_dir in
  exists packages, parse_dir "." (include_file "") = Ok packages /\
    FindEntities "." "" = (oks (outcomes packages), errs (outcomes packages), None).
Proof.
  intros X. eexists. split; [vm_compute; reflexivity|].
  apply (proj1 (FindEntities_outcomes (X := X) "." "" _ eq_refl)).
Defined.

(** The translation never reads the length of a byte array nor the name
    selected from package [time]: a field of type [[N]byte] translates
    exactly as one of type [[]byte], and a field of any type [time.X]
    exactly as one of type [time.Time], wherever it stands in the
    record. *)
Theorem type_switch_labels `{X : Externals} (structName : string)
  (l1 l2 : list Field) (names : list string) (tag : option BasicLit)
  (len : option Expr) (sel : string) :
  tableFromStructType structName
    (app l1 (mkField names (ArrayType len (Ident "byte")) tag :: l2)) =
  tableFromStructType structName
    (app l1 (mkField names (ArrayType None (Ident "byte")) tag :: l2)) /\
  tableFromStructType structName
    (app l1 (mkField names (SelectorExpr (Ident "time") sel) tag :: l2)) =
  tableFromStructType structName
    (app l1 (mkField names (SelectorExpr (Ident "time") "Time") tag :: l2)).
Proof. split; apply translate_field_congr; reflexivity. Qed.

(** A field without names (an embedded field) that is not the marker
    field contributes nothing: removing it leaves the translation
    unchanged, whatever its type or tag. *)
Theorem embedded_field_dropped `{X : Externals} (structName : string)
  (l1 l2 : list Field) (fld : Field) :
  field_names fld = [] -> is_marker fld = false ->
  tableFromStructType structName (app l1 (fld :: l2)) =
  tableFromStructType structName (app l1 l2).
Proof.
  intros Hn Hm. unfold tableFromStructType.
  destruct (NormalizeName structName) as [nn|e]; [|reflexivity].
  rewrite !fields_loop_app.
  destruct (fields_loop structName _ l1) as [t1|e]; [|reflexivity]. simpl.
  unfold field_step. unfold is_marker in Hm. rewrite Hm, Hn.
  destruct (String.eqb (field_dosa_tag fld) "-"); reflexivity.
Qed.

Lemma embedded_field_dropped_witness :
  let X := Concrete.externals [] in
  tableFromStructType "User" [Samples.qualified_marker; Samples.name_field] =
  tableFromStructType "User" [Samples.name_field].
Proof.
  intros X.
  apply (embedded_field_dropped (X := X) "User" [] [Samples.name_field]
           Samples.qualified_marker); reflexivity.
Defined.

(** Translation stops at the first field whose step fails: when the
    fields of a prefix already fail, the error is the result whatever
    fields follow. *)
Theorem first_error_wins `{X : Externals} (structName nn : string)
  (l1 l2 : list Field) (e : error) :
  NormalizeName structName = Ok nn ->
  fields_loop structName (mkTable structName nn None [] ∅ ∅) l1 = Err e ->
  tableFromStructType structName (app l1 l2) = Err e.
Proof.
  intros Hn Hl. rewrite (translate_bind_loop _ _ _ Hn), fields_loop_app, Hl.
  reflexivity.
Qed.

Lemma first_error_wins_witness :
  let X := Concrete.externals [] in
  tableFromStructType "User" [Samples.bad_type_field; Samples.name_field] =
  Err (Errorf "Column %q has invalid type %q" ["Count"; ""]).
Proof.
  intros X.
  apply (first_error_wins (X := X) "User" "user" [Samples.bad_type_field]
           [Samples.name_field]); vm_compute; reflexivity.
Defined.

(** When the fields before it translate, a non-ignored, non-marker
    field whose first exported name has a type label mapping to Invalid
    makes the translation fail with the error naming that field and the
    label. *)
Theorem invalid_type_error `{X : Externals} (structName nn : string)
  (l1 l2 : list Field) (t1 : Table) (fld : Field) (lowers rest : list string)
  (name : string) :
  NormalizeName structName = Ok nn ->
  fields_loop structName (mkTable structName nn None [] ∅ ∅) l1 = Ok t1 ->
  ignored fld = false -> is_marker fld = false ->
  field_names fld = app lowers (name :: rest) ->
  Forall (fun n => first_rune_is_lower n = true) lowers ->
  first_rune_is_lower name = false ->
  stringToDosaType (field_kind (field_type fld)) = DosaType.Invalid ->
  tableFromStructType structName (app l1 (fld :: l2)) =
    Err (Errorf "Column %q has invalid type %q" [name; field_kind (field_type fld)]).
Proof.
  intros Hn H1 Hig Hm Hnames Hl Hname Hi.
  eapply step_err_translate; [exact Hn|exact H1|].
  rewrite (first_column_step _ _ _ _ _ _ Hig Hm Hnames Hl Hname). simpl.
  rewrite Hi. reflexivity.
Qed.

Lemma invalid_type_error_witness :
  let X := Concrete.externals [] in
  tableFromStructType "User"
    [Samples.name_field; mkField ["count"; "Count"] (StarExpr (Ident "int64")) None] =
  Err (Errorf "Column %q has invalid type %q" ["Count"; ""]).
Proof.
  intros X.
  refine (invalid_type_error (X := X) "User" "user" [Samples.name_field] []
            _ (mkField ["count"; "Count"] (StarExpr (Ident "int64")) None)
            ["count"] [] "Count" _ _ _ _ _ _ _ _); vm_compute; try reflexivity.
  repeat constructor.
Defined.

(** When the fields before it translate, a non-ignored, non-marker
    field of a valid type whose first exported name is refused by
    [parseField] makes the translation fail with that error wrapped
    with the name. *)
Theorem parseField_error_wrapped `{X : Externals} (structName nn : string)
  (l1 l2 : list Field) (t1 : Table) (fld : Field) (lowers rest : list string)
  (name : string) (e : error) :
  NormalizeName structName = Ok nn ->
  fields_loop structName (mkTable structName nn None [] ∅ ∅) l1 = Ok t1 ->
  ignored fld = false -> is_marker fld = false ->
  field_names fld = app lowers (name :: rest) ->
  Forall (fun n => first_rune_is_lower n = true) lowers ->
  first_rune_is_lower name = false ->
  stringToDosaType (field_kind (field_type fld)) <> DosaType.Invalid ->
  parseField (stringToDosaType (field_kind (field_type fld))) name (field_dosa_tag fld)
    = Err e ->
  tableFromStructType structName (app l1 (fld :: l2)) = Err (Wrapf e "column %q" [name]).
Proof.
  intros Hn H1 Hig Hm Hnames Hl Hname Hi Hp.
  eapply step_err_translate; [exact Hn|exact H1|].
  rewrite (first_column_step _ _ _ _ _ _ Hig Hm Hnames Hl Hname). simpl.
  destruct (DosaType.eqb _ _) eqn:E.
  - apply dosa_type_eqb_eq in E. contradiction.
  - rewrite Hp. reflexivity.
Qed.

Lemma parseField_error_wrapped_witness :
  let X := Samples.refusing_externals in
  tableFromStructType "User" [Samples.name_field] =
  Err (Wrapf (Errorf "bad field tag" []) "column %q" ["Name"]).
Proof.
  intros X.
  refine (parseField_error_wrapped (X := X) "User" "user" [] [] _ Samples.name_field
            [] [] "Name" _ _ _ _ _ _ _ _ _ _); vm_compute; try reflexivity.
  - constructor.
  - discriminate.
Defined.

(** When the fields before it translate, a non-ignored marker field whose
    tag [parseEntityTag] refuses makes the translation fail with that
    error, not wrapped. *)
Theorem entity_tag_error_unwrapped `{X : Externals} (structName nn : string)
  (l1 l2 : list Field) (t1 : Table) (fld : Field) (e : error) :
  NormalizeName structName = Ok nn ->
  fields_loop structName (mkTable structName nn None [] ∅ ∅) l1 = Ok t1 ->
  ignored fld = false -> is_marker fld = true ->
  parseEntityTag structName (field_dosa_tag fld) = Err e ->
  tableFromStructType structName (app l1 (fld :: l2)) = Err e.
Proof.
  intros Hn H1 Hig Hm Hp.
  eapply step_err_translate; [exact Hn|exact H1|].
  unfold field_step. unfold ignored, is_marker in *. rewrite Hig, Hm, Hp. reflexivity.
Qed.

Lemma entity_tag_error_unwrapped_witness :
  let X := Concrete.externals [] in
  tableFromStructType "User" [Samples.marker "name=users"; Samples.name_field] =
  Err (Errorf "no primary key in %q" ["name=users"]).
Proof.
  intros X.
  apply (entity_tag_error_unwrapped (X := X) "User" "user" [] [Samples.name_field]
           (mkTable "User" "user" None [] ∅ ∅)); vm_compute; reflexivity.
Defined.

(** Every table the translator returns passes [EnsureValid] and keeps the
    declared struct name; when no field is a non-ignored marker field its
    name is the normalized struct name. *)
Theorem returned_table_invariants `{X : Externals} (structName : string)
  (fields : list Field) (t : Table) :
  tableFromStructType structName fields = Ok t ->
  EnsureValid t = None /\ StructName t = structName /\
  (Forall (fun fld => ignored fld = true \/ is_marker fld = false) fields ->
   NormalizeName structName = Ok (Name t)).
Proof.
  intros H. destruct (table_ok_inv _ _ _ H) as (nn & tl & Hn & Hl & Ht & Hok).
  split; [exact Hok|]. subst t. simpl. split.
  - refine (fields_loop_preserves (fun t => StructName t = structName) _ _
              structName fields (mkTable structName nn None [] ∅ ∅) _ eq_refl Hl);
      intros; simpl; assumption.
  - intros Hf. destruct (fields_loop_no_marker _ _ _ _ Hf Hl) as [-> _]. exact Hn.
Qed.

Lemma returned_table_invariants_witness :
  let X := Concrete.externals [] in
  exists t, tableFromStructType "User" Samples.user_record = Ok t /\
    EnsureValid t = None /\ StructName t = "User".
Proof.
  intros X. eval_ok E.
  destruct (returned_table_invariants (X := X) "User" Samples.user_record t E)
    as (H1 & H2 & _).
  split; assumption.
Defined.

(** The columns of a returned table are, in declaration order, the
    results of [parseField] on the exported names of the non-ignored,
    non-marker fields, each with its field's type and dosa tag. *)
Theorem columns_in_field_order `{X : Externals} (structName : string)
  (fields : list Field) (t : Table) :
  tableFromStructType structName fields = Ok t ->
  Forall2 (fun cd sp => parseField (fst (fst sp)) (snd (fst sp)) (snd sp) = Ok cd)
    (Columns t) (column_specs fields).
Proof.
  intros H. destruct (table_ok_inv _ _ _ H) as (nn & tl & _ & Hl & Ht & _).
  subst t. simpl. destruct (fields_loop_specs _ _ _ _ Hl) as (cs & Hc & Hf).
  rewrite Hc. exact Hf.
Qed.

Lemma columns_in_field_order_witness :
  let X := Concrete.externals [] in
  exists t, tableFromStructType "User" Samples.user_record = Ok t /\
    Forall2 (fun cd sp => parseField (fst (fst sp)) (snd (fst sp)) (snd sp) = Ok cd)
      (Columns t) (column_specs Samples.user_record).
Proof.
  intros X. eval_ok E. exact (columns_in_field_order (X := X) _ _ _ E).
Defined.

